(** * nest-firestore-orm: decorator, repository base and query builder

    A verification development for the TypeScript sources
      - [src/lib/types.ts]                   ([toDocumentWithId])
      - [src/lib/decorators.ts]              ([FirestoreDocument])
      - [src/lib/repository-base.ts]         ([FirestoreRepositoryBase])
      - [src/lib/firestore.query-builder.ts] ([FirestoreQueryBuilder])

    The library is a wrapper around the Firestore client.  The client is
    external: its objects (collection references, document references,
    queries, snapshots) are data, and every method invoked on them is an
    event answered by an arbitrary client.  The wrapper's methods are
    programs over these events; an interpreter runs a program against a
    client and records, in order, every client call the program made and
    how it ended. *)

From stdpp Require Import gmap strings list fin_maps.
From Stdlib Require Import ZArith.

Open Scope string_scope.
Open Scope Z_scope.
Open Scope list_scope.

(** ** Data handed over by the client *)

(** Field values stored in a document.  The wrapper never inspects them. *)
Inductive Value : Type :=
| VNull
| VBool (b : bool)
| VNum (n : Z)
| VStr (s : string).

(** A JavaScript object used as a record of fields ([DocumentData]). *)
Abbreviation Obj := (gmap string Value).

(** What a rejected promise or a thrown exception carries. *)
Inductive Error : Type := mkError (message : string).

Inductive Result (A : Type) : Type :=
| Ok (a : A)
| Err (e : Error).
Arguments Ok {A} a.
Arguments Err {A} e.

(** The [Firestore] instance injected into a repository. *)
Inductive Firestore : Type := FirestoreInstance (n : nat).

(** The handle a transaction callback receives. *)
Inductive Transaction : Type := TransactionHandle (n : nat).

(** JavaScript function objects that are only passed along
    ([onNext], [onError], the unsubscribe function). *)
Inductive JsFunction : Type := FnRef (n : nat).

Record CollectionReference : Type := mkCollection { coll_path : string }.

Record DocumentReference : Type := mkDocRef {
  doc_parent : CollectionReference;
  doc_id : string
}.

(** [DocumentSnapshot]: [id], [exists] and [data()], which is [undefined]
    for a document that does not exist. *)
Record DocumentSnapshot : Type := mkSnapshot {
  id : string;
  exists_ : bool;
  data : option Obj
}.

Inductive WhereFilterOp : Type :=
| OpLt | OpLe | OpEq | OpNe | OpGe | OpGt
| OpArrayContains | OpIn | OpNotIn | OpArrayContainsAny.

Inductive OrderByDirection : Type := Asc | Desc.

(** A client query object.  A collection reference is a query
    ([CollectionReference<T> extends Query<T>]); every other query is
    whatever the client returned from one of its query methods. *)
Inductive Query : Type :=
| QCollection (c : CollectionReference)
| QWhere (q : Query) (field : string) (op : WhereFilterOp) (v : Value)
| QOrderBy (q : Query) (field : string) (d : OrderByDirection)
| QOffset (q : Query) (n : Z)
| QLimit (q : Query) (n : Z)
| QStartAt (q : Query) (s : DocumentSnapshot)
| QStartAfter (q : Query) (s : DocumentSnapshot)
| QEndAt (q : Query) (s : DocumentSnapshot)
| QEndBefore (q : Query) (s : DocumentSnapshot).

(** [QuerySnapshot]: [docs]; [size] and [empty] are the client's getters
    over it. *)
Record QuerySnapshot : Type := mkQuerySnapshot { docs : list DocumentSnapshot }.

Definition size (s : QuerySnapshot) : Z := Z.of_nat (length (docs s)).
Definition empty (s : QuerySnapshot) : bool :=
  match docs s with [] => true | _ => false end.

(** ** Client calls *)

(** One constructor per client method the sources invoke; the index is the
    type of what the method returns (or what its promise resolves with). *)
Inductive ClientCall : Type -> Type :=
| Firestore_collection (fs : Firestore) (name : option string) : ClientCall CollectionReference
| Collection_doc (c : CollectionReference) (documentId : string) : ClientCall DocumentReference
| Doc_set (r : DocumentReference) (d : Obj) : ClientCall unit
| Doc_update (r : DocumentReference) (d : Obj) : ClientCall unit
| Doc_get (r : DocumentReference) : ClientCall DocumentSnapshot
| Doc_delete (r : DocumentReference) : ClientCall unit
| Query_where (q : Query) (field : string) (op : WhereFilterOp) (v : Value) : ClientCall Query
| Query_orderBy (q : Query) (field : string) (d : OrderByDirection) : ClientCall Query
| Query_offset (q : Query) (n : Z) : ClientCall Query
| Query_limit (q : Query) (n : Z) : ClientCall Query
| Query_startAt (q : Query) (s : DocumentSnapshot) : ClientCall Query
| Query_startAfter (q : Query) (s : DocumentSnapshot) : ClientCall Query
| Query_endAt (q : Query) (s : DocumentSnapshot) : ClientCall Query
| Query_endBefore (q : Query) (s : DocumentSnapshot) : ClientCall Query
| Query_get (q : Query) : ClientCall QuerySnapshot
| Query_onSnapshot (q : Query) (onNext : JsFunction) (onError : option JsFunction)
    : ClientCall JsFunction
| Transaction_get (t : Transaction) (r : DocumentReference) : ClientCall DocumentSnapshot
| Transaction_set (t : Transaction) (r : DocumentReference) (d : Obj) : ClientCall unit.

(** ** Programs

    [Prog S R]: a method body with receiver state [S] (the fields of
    [this]) and result [R].  [Call] awaits (or synchronously invokes) a
    client method, [RunTx] is [firestore.runTransaction(callback)],
    [RandomUUID] is [crypto.randomUUID()], [Throw] raises an error in the
    program itself, [ThisGet]/[ThisSet] read and assign the fields of
    [this]. *)
Inductive Prog : Type -> Type -> Type :=
| Ret {S R} (r : R) : Prog S R
| Throw {S R} (e : Error) : Prog S R
| Call {S X R} (c : ClientCall X) (k : X -> Prog S R) : Prog S R
| RunTx {S X R} (fs : Firestore) (body : Transaction -> Prog unit X)
    (k : X -> Prog S R) : Prog S R
| RandomUUID {S R} (k : string -> Prog S R) : Prog S R
| ThisGet {S R} (k : S -> Prog S R) : Prog S R
| ThisSet {S R} (s : S) (k : Prog S R) : Prog S R.

Fixpoint bind {S A B} (p : Prog S A) : (A -> Prog S B) -> Prog S B :=
  match p in Prog S A return (A -> Prog S B) -> Prog S B with
  | Ret r => fun f => f r
  | Throw e => fun _ => Throw e
  | Call c k => fun f => Call c (fun x => bind (k x) f)
  | RunTx fs body k => fun f => RunTx fs body (fun x => bind (k x) f)
  | RandomUUID k => fun f => RandomUUID (fun u => bind (k u) f)
  | ThisGet k => fun f => ThisGet (fun s => bind (k s) f)
  | ThisSet s k => fun f => ThisSet s (bind k f)
  end.

Notation "x <- p ;; q" := (bind p (fun x => q))
  (at level 100, p at next level, right associativity).
Notation "p ;;; q" := (bind p (fun _ => q))
  (at level 100, right associativity).

Definition call {S X} (c : ClientCall X) : Prog S X := Call c Ret.
Definition this {S} : Prog S S := ThisGet Ret.
Definition assign {S} (s : S) : Prog S unit := ThisSet s (Ret tt).

(** ** Running a program against a client *)

(** The environment a program runs in: the Firestore client, answering
    every call from its own state [St], and the runtime's
    [crypto.randomUUID].  [client_runTransaction] receives the meaning of
    the callback and decides how (and how often) to run it. *)
Record Env (St : Type) : Type := mkEnv {
  client : forall X, ClientCall X -> St -> Result X * St;
  client_runTransaction :
    forall X, Firestore -> (Transaction -> St -> Result X * St) -> St -> Result X * St;
  crypto_randomUUID : St -> string * St
}.
Arguments client {St} _ {X} _ _.
Arguments client_runTransaction {St} _ {X} _ _ _.
Arguments crypto_randomUUID {St} _ _.

(** A client call as it appears in a log. *)
Inductive Invocation : Type :=
| Invoked {X} (c : ClientCall X)
| Invoked_runTransaction (fs : Firestore).

(** A logged call and how it ended: [None] when it returned (resolved),
    [Some e] when it threw (rejected with) [e]. *)
Definition Entry : Type := Invocation * option Error.

Record Run (St S R : Type) : Type := mkRun {
  result : Result R;
  this_after : S;
  client_after : St;
  calls : list Entry
}.
Arguments mkRun {St S R} _ _ _ _.
Arguments result {St S R} _.
Arguments this_after {St S R} _.
Arguments client_after {St S R} _.
Arguments calls {St S R} _.

Definition logged {St S R} (e : Entry) (r : Run St S R) : Run St S R :=
  mkRun (result r) (this_after r) (client_after r) (e :: calls r).

(** [run env p self st]: the program [p] with receiver fields [self],
    against a client in state [st].  An error ends the program where it
    occurs (no handler exists in the sources); the receiver keeps the
    fields it had at that point. *)
Fixpoint run {St S R} (env : Env St) (p : Prog S R) : S -> St -> Run St S R :=
  match p in Prog S R return S -> St -> Run St S R with
  | Ret r => fun self st => mkRun (Ok r) self st []
  | Throw e => fun self st => mkRun (Err e) self st []
  | Call c k => fun self st =>
      match client env c st with
      | (Ok x, st') => logged (Invoked c, None) (run env (k x) self st')
      | (Err e, st') => mkRun (Err e) self st' [(Invoked c, Some e)]
      end
  | RunTx fs body k => fun self st =>
      let callback t st0 :=
        let r := run env (body t) tt st0 in (result r, client_after r) in
      match client_runTransaction env fs callback st with
      | (Ok x, st') =>
          logged (Invoked_runTransaction fs, None) (run env (k x) self st')
      | (Err e, st') =>
          mkRun (Err e) self st' [(Invoked_runTransaction fs, Some e)]
      end
  | RandomUUID k => fun self st =>
      let (u, st') := crypto_randomUUID env st in run env (k u) self st'
  | ThisGet k => fun self st => run env (k self) self st
  | ThisSet s k => fun _ st => run env k s st
  end.

(** ** [src/lib/types.ts] *)

(** Object spread [{ ...target, ...src }]: the own properties of [src] are
    copied over those already present. *)
Definition spread (target src : Obj) : Obj := src ∪ target.

(** [toDocumentWithId]: [{ documentId: document.id, ...document.data() }].
    Spreading [undefined] copies nothing. *)
Definition toDocumentWithId (document : DocumentSnapshot) : Obj :=
  spread {[ "documentId" := VStr (id document) ]} (default ∅ (data document)).

(** ** [reflect-metadata] *)

(** A class constructor: its identity and, for [class C extends B], the
    constructor it extends. *)
Inductive Constructor : Type :=
| BaseClass (n : nat)
| DerivedClass (n : nat) (extends : Constructor).

Definition ctor_id (c : Constructor) : nat :=
  match c with BaseClass n | DerivedClass n _ => n end.

(** The metadata registry: per target object, a map from keys to values. *)
Abbreviation Metadata := (gmap nat (gmap string string)).

Definition defineMetadata (key value : string) (target : Constructor)
    (m : Metadata) : Metadata :=
  <[ ctor_id target := <[ key := value ]> (default ∅ (m !! ctor_id target)) ]> m.

(** [Reflect.getMetadata] looks at the target and then up its prototype
    chain; [None] is [undefined]. *)
Fixpoint getMetadata (key : string) (target : Constructor) (m : Metadata)
    : option string :=
  let own := m !! ctor_id target ≫= (fun kv => kv !! key) in
  match target with
  | BaseClass _ => own
  | DerivedClass _ parent =>
      match own with
      | Some v => Some v
      | None => getMetadata key parent m
      end
  end.

(** The receiver of a chaining method, returned as [this]. *)
Inductive ThisRef : Type := This.

(** [FirestoreQueryBuilder]'s fields. *)
Record FirestoreQueryBuilder : Type := mkBuilder {
  reference : CollectionReference;
  query : Query
}.

(** [FirestoreRepositoryBase]'s fields. *)
Record FirestoreRepositoryBase : Type := mkRepository {
  firestore : Firestore;
  collection : CollectionReference
}.

(** [{ count, data }] of [getManyAndCount]. *)
Record CountAndData : Type := mkCountAndData {
  count_ : Z;
  data_ : list Obj
}.

Section Sources.

(** [FIRESTORE_COLLECTION_NAME_KEY], exported by [./constants]. *)
Variable FIRESTORE_COLLECTION_NAME_KEY : string.

(** ** [src/lib/decorators.ts] *)

Definition FirestoreDocument (collectionName : string)
    (constructor : Constructor) (m : Metadata) : Metadata :=
  defineMetadata FIRESTORE_COLLECTION_NAME_KEY collectionName constructor m.

(** ** [src/lib/firestore.query-builder.ts] *)

Definition new_FirestoreQueryBuilder (reference : CollectionReference)
    : FirestoreQueryBuilder :=
  {| reference := reference; query := QCollection reference |}.

(** [this.query = q; return this;] *)
Definition set_query (q : Query) : Prog FirestoreQueryBuilder ThisRef :=
  self <- this ;;
  assign {| reference := reference self; query := q |} ;;;
  Ret This.

Definition where_ (field : string) (operator : WhereFilterOp) (value : Value)
    : Prog FirestoreQueryBuilder ThisRef :=
  self <- this ;;
  q <- call (Query_where (query self) field operator value) ;;
  set_query q.

Definition orderBy (field : string) (direction : option OrderByDirection)
    : Prog FirestoreQueryBuilder ThisRef :=
  let direction := default Asc direction in
  self <- this ;;
  q <- call (Query_orderBy (query self) field direction) ;;
  set_query q.

Definition offset (offset : Z) : Prog FirestoreQueryBuilder ThisRef :=
  self <- this ;;
  q <- call (Query_offset (query self) offset) ;;
  set_query q.

Definition limit (limit : Z) : Prog FirestoreQueryBuilder ThisRef :=
  self <- this ;;
  q <- call (Query_limit (query self) limit) ;;
  set_query q.

Definition startAt (snapshot : DocumentSnapshot) : Prog FirestoreQueryBuilder ThisRef :=
  self <- this ;;
  q <- call (Query_startAt (query self) snapshot) ;;
  set_query q.

Definition startAfter (snapshot : DocumentSnapshot) : Prog FirestoreQueryBuilder ThisRef :=
  self <- this ;;
  q <- call (Query_startAfter (query self) snapshot) ;;
  set_query q.

Definition endAt (snapshot : DocumentSnapshot) : Prog FirestoreQueryBuilder ThisRef :=
  self <- this ;;
  q <- call (Query_endAt (query self) snapshot) ;;
  set_query q.

Definition endBefore (snapshot : DocumentSnapshot) : Prog FirestoreQueryBuilder ThisRef :=
  self <- this ;;
  q <- call (Query_endBefore (query self) snapshot) ;;
  set_query q.

Definition clear : Prog FirestoreQueryBuilder ThisRef :=
  self <- this ;;
  set_query (QCollection (reference self)).

Definition onSnapshot (onNext : JsFunction) (onError : option JsFunction)
    : Prog FirestoreQueryBuilder JsFunction :=
  self <- this ;;
  call (Query_onSnapshot (query self) onNext onError).

Definition getOne : Prog FirestoreQueryBuilder (option Obj) :=
  self <- this ;;
  limited <- call (Query_limit (query self) 1) ;;
  documents <- call (Query_get limited) ;;
  Ret (if negb (empty documents)
       then toDocumentWithId <$> head (docs documents)
       else None).

Definition getMany : Prog FirestoreQueryBuilder (list Obj) :=
  self <- this ;;
  documents <- call (Query_get (query self)) ;;
  Ret (toDocumentWithId <$> docs documents).

Definition getManyAndCount : Prog FirestoreQueryBuilder CountAndData :=
  self <- this ;;
  documents <- call (Query_get (query self)) ;;
  Ret {| count_ := size documents;
         data_ := toDocumentWithId <$> docs documents |}.

Definition count : Prog FirestoreQueryBuilder Z :=
  self <- this ;;
  documents <- call (Query_get (query self)) ;;
  Ret (size documents).

(** ** [src/lib/repository-base.ts] *)

(** The constructor.  [m] is the metadata registry at that moment. *)
Definition new_FirestoreRepositoryBase (m : Metadata) (firestore : Firestore)
    (entityType : Constructor) : Prog unit FirestoreRepositoryBase :=
  let collectionName := getMetadata FIRESTORE_COLLECTION_NAME_KEY entityType m in
  c <- call (Firestore_collection firestore collectionName) ;;
  Ret {| firestore := firestore; collection := c |}.

Definition createQueryBuilder : Prog FirestoreRepositoryBase FirestoreQueryBuilder :=
  self <- this ;;
  Ret (new_FirestoreQueryBuilder (collection self)).

(** [documentId || crypto.randomUUID()]: a missing or empty id is falsy. *)
Definition documentId_or_random {S} (documentId : option string) : Prog S string :=
  match documentId with
  | Some s => if decide (s = "") then RandomUUID Ret else Ret s
  | None => RandomUUID Ret
  end.

Definition create (data : Obj) (documentId : option string)
    : Prog FirestoreRepositoryBase Obj :=
  documentId <- documentId_or_random documentId ;;
  self <- this ;;
  reference <- call (Collection_doc (collection self) documentId) ;;
  call (Doc_set reference data) ;;;
  document <- call (Doc_get reference) ;;
  Ret (toDocumentWithId document).

Definition update (documentId : string) (data : Obj)
    : Prog FirestoreRepositoryBase Obj :=
  self <- this ;;
  reference <- call (Collection_doc (collection self) documentId) ;;
  call (Doc_update reference data) ;;;
  document <- call (Doc_get reference) ;;
  Ret (toDocumentWithId document).

Definition findOneById (documentId : string)
    : Prog FirestoreRepositoryBase (option Obj) :=
  self <- this ;;
  reference <- call (Collection_doc (collection self) documentId) ;;
  document <- call (Doc_get reference) ;;
  Ret (if exists_ document then Some (toDocumentWithId document) else None).

Definition deleteById (documentId : string) : Prog FirestoreRepositoryBase unit :=
  self <- this ;;
  reference <- call (Collection_doc (collection self) documentId) ;;
  call (Doc_delete reference) ;;;
  Ret tt.

Definition existsById (documentId : string) : Prog FirestoreRepositoryBase bool :=
  self <- this ;;
  reference <- call (Collection_doc (collection self) documentId) ;;
  document <- call (Doc_get reference) ;;
  Ret (exists_ document).

(** [this.firestore.runTransaction(async (transaction) =>
      { return await execute(transaction); })] *)
Definition runTransaction {R} (execute : Transaction -> Prog unit R)
    : Prog FirestoreRepositoryBase R :=
  self <- this ;;
  RunTx (firestore self)
        (fun transaction => r <- execute transaction ;; Ret r)
        Ret.

End Sources.

(** ** An in-memory client

    A small Firestore stand-in used to run the programs on concrete
    inputs: documents live in a map from (collection path, document id)
    to their fields. *)
Module InMemory.

Record State : Type := mkState {
  documents : gmap (string * string) Obj;
  uuids : list string
}.

Definition key_of (r : DocumentReference) : string * string :=
  (coll_path (doc_parent r), doc_id r).

Definition snapshot_of (st : State) (r : DocumentReference) : DocumentSnapshot :=
  {| id := doc_id r;
     exists_ := bool_decide (is_Some (documents st !! key_of r));
     data := documents st !! key_of r |}.

Definition put (r : DocumentReference) (d : Obj) (st : State) : State :=
  {| documents := <[ key_of r := d ]> (documents st); uuids := uuids st |}.

Definition remove (r : DocumentReference) (st : State) : State :=
  {| documents := delete (key_of r) (documents st); uuids := uuids st |}.

Definition not_found : Error := mkError "NOT_FOUND".
Definition invalid_path : Error := mkError "INVALID_ARGUMENT".

Definition holds (op : WhereFilterOp) (a b : Value) : bool :=
  match op, a, b with
  | OpEq, VNum x, VNum y => bool_decide (x = y)
  | OpEq, VStr x, VStr y => bool_decide (x = y)
  | OpEq, VBool x, VBool y => bool_decide (x = y)
  | OpNe, VNum x, VNum y => negb (bool_decide (x = y))
  | OpNe, VStr x, VStr y => negb (bool_decide (x = y))
  | OpLt, VNum x, VNum y => bool_decide (x < y)
  | OpLe, VNum x, VNum y => bool_decide (x <= y)
  | OpGe, VNum x, VNum y => bool_decide (y <= x)
  | OpGt, VNum x, VNum y => bool_decide (y < x)
  | _, _, _ => false
  end.

Definition matches (field : string) (op : WhereFilterOp) (v : Value)
    (s : DocumentSnapshot) : bool :=
  match data s ≫= (fun d => d !! field) with
  | Some a => holds op a v
  | None => false
  end.

(** Filters, [limit] and [offset] are evaluated; ordering and cursors are
    accepted and leave the result as it is. *)
Fixpoint eval (st : State) (q : Query) : list DocumentSnapshot :=
  match q with
  | QCollection c =>
      omap (fun '((path, i), d) =>
              if decide (path = coll_path c)
              then Some {| id := i; exists_ := true; data := Some d |}
              else None)
           (map_to_list (documents st))
  | QWhere q field op v => filter (fun s => matches field op v s = true) (eval st q)
  | QOffset q n => drop (Z.to_nat n) (eval st q)
  | QLimit q n => take (Z.to_nat n) (eval st q)
  | QOrderBy q _ _ | QStartAt q _ | QStartAfter q _ | QEndAt q _ | QEndBefore q _ =>
      eval st q
  end.

Definition handle {X} (c : ClientCall X) (st : State) : Result X * State :=
  match c in ClientCall X return Result X * State with
  | Firestore_collection _ name =>
      match name with
      | Some n => if decide (n = "") then (Err invalid_path, st)
                  else (Ok {| coll_path := n |}, st)
      | None => (Err invalid_path, st)
      end
  | Collection_doc c i =>
      if decide (i = "") then (Err invalid_path, st)
      else (Ok {| doc_parent := c; doc_id := i |}, st)
  | Doc_set r d | Transaction_set _ r d => (Ok tt, put r d st)
  | Doc_update r d =>
      match documents st !! key_of r with
      | Some old => (Ok tt, put r (d ∪ old) st)
      | None => (Err not_found, st)
      end
  | Doc_get r | Transaction_get _ r => (Ok (snapshot_of st r), st)
  | Doc_delete r => (Ok tt, remove r st)
  | Query_where q f op v => (Ok (QWhere q f op v), st)
  | Query_orderBy q f d => (Ok (QOrderBy q f d), st)
  | Query_offset q n => (Ok (QOffset q n), st)
  | Query_limit q n => (Ok (QLimit q n), st)
  | Query_startAt q s => (Ok (QStartAt q s), st)
  | Query_startAfter q s => (Ok (QStartAfter q s), st)
  | Query_endAt q s => (Ok (QEndAt q s), st)
  | Query_endBefore q s => (Ok (QEndBefore q s), st)
  | Query_get q => (Ok {| docs := eval st q |}, st)
  | Query_onSnapshot _ _ _ => (Ok (FnRef 0), st)
  end.

(** The callback runs once; its writes are kept when it resolves and
    dropped when it rejects. *)
Definition transact {X} (fs : Firestore)
    (callback : Transaction -> State -> Result X * State) (st : State)
    : Result X * State :=
  match callback (TransactionHandle 0) st with
  | (Ok x, st') => (Ok x, st')
  | (Err e, _) => (Err e, st)
  end.

Definition randomUUID (st : State) : string * State :=
  match uuids st with
  | u :: rest => (u, {| documents := documents st; uuids := rest |})
  | [] => ("00000000-0000-4000-8000-000000000000", st)
  end.

Definition env : Env State :=
  {| client := @handle; client_runTransaction := @transact;
     crypto_randomUUID := randomUUID |}.

End InMemory.

(** ** The public methods *)

(** The CRUD methods of [FirestoreRepositoryBase], with their arguments. *)
Inductive Crud : Type -> Type :=
| Create (data : Obj) (documentId : option string) : Crud Obj
| Update (documentId : string) (data : Obj) : Crud Obj
| FindOneById (documentId : string) : Crud (option Obj)
| DeleteById (documentId : string) : Crud unit
| ExistsById (documentId : string) : Crud bool.

Definition crud {R} (m : Crud R) : Prog FirestoreRepositoryBase R :=
  match m with
  | Create data documentId => create data documentId
  | Update documentId data => update documentId data
  | FindOneById documentId => findOneById documentId
  | DeleteById documentId => deleteById documentId
  | ExistsById documentId => existsById documentId
  end.

Definition crud_name {R} (m : Crud R) : string :=
  match m with
  | Create _ _ => "create"
  | Update _ _ => "update"
  | FindOneById _ => "findOneById"
  | DeleteById _ => "deleteById"
  | ExistsById _ => "existsById"
  end.

Definition crud_names : list string :=
  ["create"; "update"; "findOneById"; "deleteById"; "existsById"].

(** Every public method of [FirestoreRepositoryBase]. *)
Inductive RepositoryMethod : Type -> Type :=
| CrudMethod {R} (m : Crud R) : RepositoryMethod R
| RunTransaction {R} (execute : Transaction -> Prog unit R) : RepositoryMethod R
| CreateQueryBuilder : RepositoryMethod FirestoreQueryBuilder.

Definition repository_method {R} (m : RepositoryMethod R)
    : Prog FirestoreRepositoryBase R :=
  match m with
  | CrudMethod m => crud m
  | RunTransaction execute => runTransaction execute
  | CreateQueryBuilder => createQueryBuilder
  end.

(** The chaining methods of [FirestoreQueryBuilder], with their arguments. *)
Inductive Chain : Type :=
| Where (field : string) (operator : WhereFilterOp) (value : Value)
| OrderBy (field : string) (direction : option OrderByDirection)
| Offset (n : Z)
| Limit (n : Z)
| StartAt (snapshot : DocumentSnapshot)
| StartAfter (snapshot : DocumentSnapshot)
| EndAt (snapshot : DocumentSnapshot)
| EndBefore (snapshot : DocumentSnapshot)
| Clear.

Definition chain (c : Chain) : Prog FirestoreQueryBuilder ThisRef :=
  match c with
  | Where field operator value => where_ field operator value
  | OrderBy field direction => orderBy field direction
  | Offset n => offset n
  | Limit n => limit n
  | StartAt s => startAt s
  | StartAfter s => startAfter s
  | EndAt s => endAt s
  | EndBefore s => endBefore s
  | Clear => clear
  end.

Definition chain_name (c : Chain) : string :=
  match c with
  | Where _ _ _ => "where"
  | OrderBy _ _ => "orderBy"
  | Offset _ => "offset"
  | Limit _ => "limit"
  | StartAt _ => "startAt"
  | StartAfter _ => "startAfter"
  | EndAt _ => "endAt"
  | EndBefore _ => "endBefore"
  | Clear => "clear"
  end.

Definition chain_names : list string :=
  ["where"; "orderBy"; "offset"; "limit"; "startAt"; "startAfter"; "endAt";
   "endBefore"; "clear"].

(** [builder.c1(..).c2(..)...]: each call is made on the [this] the
    previous one returned. *)
Fixpoint chain_all (cs : list Chain) : Prog FirestoreQueryBuilder ThisRef :=
  match cs with
  | [] => Ret This
  | c :: cs => chain c ;;; chain_all cs
  end.

(** The materialization methods. *)
Inductive Materialize : Type -> Type :=
| GetOne : Materialize (option Obj)
| GetMany : Materialize (list Obj)
| GetManyAndCount : Materialize CountAndData
| Count : Materialize Z.

Definition materialize {R} (m : Materialize R) : Prog FirestoreQueryBuilder R :=
  match m with
  | GetOne => getOne
  | GetMany => getMany
  | GetManyAndCount => getManyAndCount
  | Count => count
  end.

Definition materialize_name {R} (m : Materialize R) : string :=
  match m with
  | GetOne => "getOne"
  | GetMany => "getMany"
  | GetManyAndCount => "getManyAndCount"
  | Count => "count"
  end.

Definition materialize_names : list string :=
  ["getOne"; "getMany"; "getManyAndCount"; "count"].

(** Every public method of [FirestoreQueryBuilder]. *)
Inductive BuilderMethod : Type -> Type :=
| Chained (c : Chain) : BuilderMethod ThisRef
| OnSnapshot (onNext : JsFunction) (onError : option JsFunction)
    : BuilderMethod JsFunction
| Materialized {R} (m : Materialize R) : BuilderMethod R.

Definition builder_method {R} (m : BuilderMethod R)
    : Prog FirestoreQueryBuilder R :=
  match m with
  | Chained c => chain c
  | OnSnapshot onNext onError => onSnapshot onNext onError
  | Materialized m => materialize m
  end.

(** ** Vocabulary of the statements *)

(** What remains to run after [r]: on success the continuation, whose calls
    follow those of [r]; on failure nothing. *)
Definition and_then {St S A B} (r : Run St S A) (k : A -> S -> St -> Run St S B)
    : Run St S B :=
  match result r with
  | Ok x =>
      let r' := k x (this_after r) (client_after r) in
      mkRun (result r') (this_after r') (client_after r') (calls r ++ calls r')
  | Err e => mkRun (Err e) (this_after r) (client_after r) (calls r)
  end.

(** A run that consists of the single client call [c]: on success the
    receiver becomes [after x] and the result is [ret x]. *)
Definition one_call {St S X R} (env : Env St) (c : ClientCall X)
    (self : S) (st : St) (after : X -> S) (ret : X -> R) : Run St S R :=
  match client env c st with
  | (Ok x, st') => mkRun (Ok (ret x)) (after x) st' [(Invoked c, None)]
  | (Err e, st') => mkRun (Err e) self st' [(Invoked c, Some e)]
  end.



(** The run made exactly one client call. *)
Definition single_delegation {St S R} (r : Run St S R) : Prop :=
  exists en : Entry, calls r = [en].

(** The calls of [r] are the expected ones, all of them when [r] resolved
    and the first few when it rejected. *)
Definition follows {St S R} (r : Run St S R) (expected : list Invocation) : Prop :=
  match result r with
  | Ok _ => (calls r).*1 = expected
  | Err _ => (calls r).*1 `prefix_of` expected
  end.

(** The id [create] uses, and the client's state once it is known: the
    caller's id when it is truthy, else the UUID the runtime produces. *)
Definition id_in_use {St} (env : Env St) (documentId : option string) (st : St)
    : string * St :=
  match documentId with
  | Some s => if decide (s = "") then crypto_randomUUID env st else (s, st)
  | None => crypto_randomUUID env st
  end.

(** The reference the client returns from [c.doc(i)] (when it returns). *)
Definition returned_reference {St} (env : Env St) (c : CollectionReference)
    (i : string) (st : St) : DocumentReference :=
  match client env (Collection_doc c i) st with
  | (Ok r, _) => r
  | (Err _, _) => {| doc_parent := c; doc_id := i |}
  end.

(** The query the client returns from [q.limit(n)] (when it returns). *)
Definition returned_limit {St} (env : Env St) (q : Query) (n : Z) (st : St)
    : Query :=
  match client env (Query_limit q n) st with
  | (Ok q', _) => q'
  | (Err _, _) => q
  end.

(** The client calls each repository method is made of, in order. *)
Definition repository_delegation {St R} (env : Env St) (m : RepositoryMethod R)
    (self : FirestoreRepositoryBase) (st : St) : list Invocation :=
  let on documentId st := returned_reference env (collection self) documentId st in
  match m with
  | CrudMethod (Create data documentId) =>
      let '(i, st') := id_in_use env documentId st in
      [Invoked (Collection_doc (collection self) i);
       Invoked (Doc_set (on i st') data); Invoked (Doc_get (on i st'))]
  | CrudMethod (Update documentId data) =>
      [Invoked (Collection_doc (collection self) documentId);
       Invoked (Doc_update (on documentId st) data);
       Invoked (Doc_get (on documentId st))]
  | CrudMethod (FindOneById documentId) | CrudMethod (ExistsById documentId) =>
      [Invoked (Collection_doc (collection self) documentId);
       Invoked (Doc_get (on documentId st))]
  | CrudMethod (DeleteById documentId) =>
      [Invoked (Collection_doc (collection self) documentId);
       Invoked (Doc_delete (on documentId st))]
  | RunTransaction _ => [Invoked_runTransaction (firestore self)]
  | CreateQueryBuilder => []
  end.

(** The client query method behind a chaining method; [clear] has none. *)
Definition chain_client_call (c : Chain) (q : Query) : option (ClientCall Query) :=
  match c with
  | Where field operator value => Some (Query_where q field operator value)
  | OrderBy field direction => Some (Query_orderBy q field (default Asc direction))
  | Offset n => Some (Query_offset q n)
  | Limit n => Some (Query_limit q n)
  | StartAt s => Some (Query_startAt q s)
  | StartAfter s => Some (Query_startAfter q s)
  | EndAt s => Some (Query_endAt q s)
  | EndBefore s => Some (Query_endBefore q s)
  | Clear => None
  end.

(** The client calls each builder method is made of, in order. *)
Definition builder_delegation {St R} (env : Env St) (m : BuilderMethod R)
    (self : FirestoreQueryBuilder) (st : St) : list Invocation :=
  match m with
  | Chained c =>
      match chain_client_call c (query self) with
      | Some call => [Invoked call]
      | None => []
      end
  | OnSnapshot onNext onError =>
      [Invoked (Query_onSnapshot (query self) onNext onError)]
  | Materialized GetOne =>
      [Invoked (Query_limit (query self) 1);
       Invoked (Query_get (returned_limit env (query self) 1 st))]
  | Materialized _ => [Invoked (Query_get (query self))]
  end.

(** What a materialization method makes of the client's query snapshot. *)
Definition reshape {R} (m : Materialize R) (documents : QuerySnapshot) : R :=
  match m with
  | GetOne => toDocumentWithId <$> head (docs documents)
  | GetMany => toDocumentWithId <$> docs documents
  | GetManyAndCount =>
      {| count_ := size documents; data_ := toDocumentWithId <$> docs documents |}
  | Count => size documents
  end.

(** A materialization as client calls: [get] on the accumulated query,
    for [getOne] on what the client returns from [limit(1)] of it. *)
Definition executed {St R} (env : Env St) (m : Materialize R)
    (self : FirestoreQueryBuilder) (st : St) : Run St FirestoreQueryBuilder R :=
  let get q self st :=
    one_call env (Query_get q) self st (fun _ => self) (reshape m) in
  match m with
  | GetOne =>
      and_then (one_call env (Query_limit (query self) 1) self st
                         (fun _ => self) (fun q1 => q1))
               get
  | _ => get (query self) self st
  end.

(** The run of a chaining method applied a client query method: its log is
    one call of a method that returns a query. *)
Definition applies_client_query_method {St S R} (r : Run St S R) : Prop :=
  exists (call : ClientCall Query) (out : option Error),
    calls r = [(Invoked call, out)].

(** The collection a query was derived from. *)
Fixpoint query_root (q : Query) : CollectionReference :=
  match q with
  | QCollection c => c
  | QWhere q _ _ _ | QOrderBy q _ _ | QOffset q _ | QLimit q _
  | QStartAt q _ | QStartAfter q _ | QEndAt q _ | QEndBefore q _ => query_root q
  end.

(** The collection a client call operates on. *)
Definition target_collection (inv : Invocation) : option CollectionReference :=
  match inv with
  | Invoked c =>
      match c with
      | Firestore_collection _ _ => None
      | Collection_doc c _ => Some c
      | Doc_set r _ | Doc_update r _ | Doc_get r | Doc_delete r
      | Transaction_get _ r | Transaction_set _ r _ => Some (doc_parent r)
      | Query_where q _ _ _ | Query_orderBy q _ _ | Query_offset q _
      | Query_limit q _ | Query_startAt q _ | Query_startAfter q _
      | Query_endAt q _ | Query_endBefore q _ | Query_get q
      | Query_onSnapshot q _ _ => Some (query_root q)
      end
  | Invoked_runTransaction _ => None
  end.

(** The reference the client returned from [doc] in a CRUD method: the one
    its later calls are made on. *)
Definition crud_reference {St R} (env : Env St) (m : Crud R)
    (self : FirestoreRepositoryBase) (st : St) : DocumentReference :=
  match m with
  | Create _ documentId =>
      let '(i, st') := id_in_use env documentId st in
      returned_reference env (collection self) i st'
  | Update documentId _ | FindOneById documentId | DeleteById documentId
  | ExistsById documentId =>
      returned_reference env (collection self) documentId st
  end.

(** The call is [c.doc(..)], or a call on the document reference [ref]. *)
Definition on_own_reference (c : CollectionReference) (ref : DocumentReference)
    (inv : Invocation) : Prop :=
  match inv with
  | Invoked call =>
      match call with
      | Collection_doc c' _ => c' = c
      | Doc_set r _ | Doc_update r _ | Doc_get r | Doc_delete r => r = ref
      | _ => False
      end
  | Invoked_runTransaction _ => False
  end.

(** What the client is handed as the transaction callback. *)
Definition callback_meaning {St R} (env : Env St)
    (execute : Transaction -> Prog unit R)
    : Transaction -> St -> Result R * St :=
  fun t st => let r := run env (execute t) tt st in (result r, client_after r).

(** The client cannot tell apart two callbacks that behave alike. *)
Definition callback_extensional {St} (env : Env St) : Prop :=
  forall X fs (f g : Transaction -> St -> Result X * St) st,
    (forall t s, f t s = g t s) ->
    client_runTransaction env fs f st = client_runTransaction env fs g st.

(** [limit] and [get] on a query do not change what the client holds. *)
Definition reads_leave_client_unchanged {St} (env : Env St) : Prop :=
  (forall q n st, (client env (Query_limit q n) st).2 = st)
  /\ (forall q st, (client env (Query_get q) st).2 = st).

(** ** Concrete inputs *)
Module Sample.

Definition KEY : string := "firestore:collection_name".
Definition db : Firestore := FirestoreInstance 0.
Definition accounts : CollectionReference := {| coll_path := "accounts" |}.
Definition Account : Constructor := BaseClass 1.

Definition repository : FirestoreRepositoryBase :=
  {| firestore := db; collection := accounts |}.

(** One stored account whose fields include one named [documentId]. *)
Definition ann : Obj :=
  {[ "documentId" := VStr "zzz"; "displayName" := VStr "Ann" ]}.

Definition bob : Obj := {[ "displayName" := VStr "Bob" ]}.

Definition st0 : InMemory.State :=
  {| InMemory.documents :=
       {[ ("accounts", "abc") := ann; ("accounts", "def") := bob ]};
     InMemory.uuids := ["6f1c0a52-0d3e-4c58-9a55-3b0d1f6f7a10"] |}.

Definition abc : DocumentReference := {| doc_parent := accounts; doc_id := "abc" |}.

Definition filtered : FirestoreQueryBuilder :=
  {| reference := accounts;
     query := QWhere (QCollection accounts) "displayName" OpEq (VStr "Bob") |}.

(** A transaction that reads [abc] and writes [bob] over it. *)
Definition overwrite (t : Transaction) : Prog unit bool :=
  s <- call (Transaction_get t abc) ;;
  call (Transaction_set t abc bob) ;;;
  Ret (exists_ s).

End Sample.

(** ** Vocabulary of the further properties *)

(** The identities [Reflect.getMetadata] visits: the target's, then those of
    the constructors it extends. *)
Fixpoint prototype_chain (c : Constructor) : list nat :=
  match c with
  | BaseClass n => [n]
  | DerivedClass n parent => n :: prototype_chain parent
  end.

(** The metadata defined on the object with identity [n] itself. *)
Definition own_metadata (key : string) (n : nat) (m : Metadata) : option string :=
  m !! n ≫= (fun kv => kv !! key).

(** The same environment with another [crypto.randomUUID]. *)
Definition with_randomUUID {St} (uuid : St -> string * St) (env : Env St) : Env St :=
  {| client := @client St env;
     client_runTransaction := @client_runTransaction St env;
     crypto_randomUUID := uuid |}.

(** The chaining methods behind which a client call stands. *)
Definition makes_call (c : Chain) : bool :=
  match c with Clear => false | _ => true end.

(** The client's query methods return a query on the collection of the
    query they were called on. *)
Definition queries_keep_root {St} (env : Env St) : Prop :=
  forall c q call st q' st',
    chain_client_call c q = Some call ->
    client env call st = (Ok q', st') ->
    query_root q' = query_root q.

(** The path separator, the character [/] (code 47). *)
Definition slash : Ascii.ascii := Ascii.ascii_of_nat 47.




(** ** An in-memory client that reads ids as paths

    As [InMemory], except that [collection.doc(id)] splits the id at [/]:
    an odd number of non-empty segments names a document, the last segment
    being its id and the others leading into sub-collections; anything
    else is rejected. *)
Module Paths.

Fixpoint segments (s : string) : list string :=
  match s with
  | EmptyString => [EmptyString]
  | String a rest =>
      if Ascii.eqb a slash then EmptyString :: segments rest
      else match segments rest with
           | seg :: more => String a seg :: more
           | [] => [String a EmptyString]
           end
  end.

Fixpoint join (l : list string) : string :=
  match l with
  | [] => EmptyString
  | [s] => s
  | s :: rest => String.append s (String slash (join rest))
  end.

Definition resolve (c : CollectionReference) (i : string)
    : Result DocumentReference :=
  let segs := segments i in
  if existsb (fun s => String.eqb s EmptyString) segs then Err InMemory.invalid_path
  else if Nat.even (length segs) then Err InMemory.invalid_path
  else Ok {| doc_parent := {| coll_path := join (coll_path c :: removelast segs) |};
             doc_id := List.last segs EmptyString |}.

Definition handle {X} (c : ClientCall X) (st : InMemory.State)
    : Result X * InMemory.State :=
  match c in ClientCall X return Result X * InMemory.State with
  | Collection_doc col i => (resolve col i, st)
  | c' => InMemory.handle c' st
  end.

Definition env : Env InMemory.State :=
  {| client := @handle; client_runTransaction := @InMemory.transact;
     crypto_randomUUID := InMemory.randomUUID |}.

End Paths.

(** The builder's query is a query on the builder's collection. *)
Definition rooted (b : FirestoreQueryBuilder) : Prop :=
  query_root (query b) = reference b.

(** Every logged call operates on the collection [c]. *)
Definition all_on {St S R} (c : CollectionReference) (r : Run St S R) : Prop :=
  Forall (fun en : Entry => target_collection en.1 = Some c) (calls r).
(** ** General facts about running programs *)

Lemma and_then_logged {St S A B} (e : Entry) (r : Run St S A)
    (k : A -> S -> St -> Run St S B) :
  and_then (logged e r) k = logged e (and_then r k).
Proof. unfold and_then, logged; simpl. by destruct (result r). Qed.

Lemma run_eta {St S R} (r : Run St S R) :
  mkRun (result r) (this_after r) (client_after r) (calls r) = r.
Proof. by destruct r. Qed.

Lemma run_bind {St S A B} (env : Env St) (p : Prog S A) (f : A -> Prog S B)
    (self : S) (st : St) :
  run env (bind p f) self st
  = and_then (run env p self st) (fun x => run env (f x)).
Proof.
  revert B f self st.
  induction p as [S A a|S A e|S X A c k IH|S X A fs body _ k IH
                 |S A k IH|S A k IH|S A s k IH]; intros B f self st; simpl.
  - unfold and_then; simpl. by rewrite run_eta.
  - done.
  - destruct (client env c st) as [[x|e] st']; [|done].
    by rewrite IH, and_then_logged.
  - destruct (client_runTransaction env fs _ st) as [[x|e] st']; [|done].
    by rewrite IH, and_then_logged.
  - destruct (crypto_randomUUID env st) as [u st']. apply IH.
  - apply IH.
  - apply IH.
Qed.

(** [r <- p ;; Ret r] runs as [p]. *)
Lemma run_bind_Ret {St S A} (env : Env St) (p : Prog S A) (self : S) (st : St) :
  run env (r <- p ;; Ret r) self st = run env p self st.
Proof.
  rewrite run_bind. unfold and_then.
  destruct (run env p self st) as [[x|e] s' st' cs]; simpl; [|done].
  by rewrite app_nil_r.
Qed.



(** ** [toDocumentWithId] *)

(** Field by field: a stored field wins; [documentId] is the snapshot's id
    only when no stored field has that name. *)
Lemma toDocumentWithId_lookup (document : DocumentSnapshot) (k : string) :
  toDocumentWithId document !! k
  = match default ∅ (data document) !! k with
    | Some v => Some v
    | None => if decide (k = "documentId") then Some (VStr (id document)) else None
    end.
Proof.
  unfold toDocumentWithId, spread. rewrite lookup_union.
  destruct (default ∅ (data document) !! k) as [v|] eqn:Hk.
  - by destruct ({[ "documentId" := VStr (id document) ]} !! k).
  - rewrite left_id_L by apply _. rewrite lookup_singleton.
    by destruct (decide ("documentId" = k)), (decide (k = "documentId")).
Qed.

(** When the stored fields have none named [documentId], the result carries
    the snapshot's id under that name, next to every stored field. *)
Lemma toDocumentWithId_attaches_id (document : DocumentSnapshot) :
  default ∅ (data document) !! "documentId" = None ->
  toDocumentWithId document !! "documentId" = Some (VStr (id document))
  /\ forall k v, default ∅ (data document) !! k = Some v ->
                 toDocumentWithId document !! k = Some v.
Proof.
  intros Hfresh. split.
  - by rewrite toDocumentWithId_lookup, Hfresh.
  - intros k v Hk. by rewrite toDocumentWithId_lookup, Hk.
Qed.

(** C1, evaluated on the in-memory client: [findOneById("abc")] on a
    collection whose document [abc] stores a field [documentId = "zzz"].
    The client's snapshot has id ["abc"]; the method resolves with that
    snapshot reshaped, and the reshaped value's [documentId] is ["zzz"], not
    the snapshot's id. *)
Theorem findOneById_documentId_not_snapshot_id :
  let snapshot := InMemory.snapshot_of Sample.st0 Sample.abc in
  let r := run InMemory.env (findOneById "abc") Sample.repository Sample.st0 in
  client InMemory.env (Doc_get Sample.abc) Sample.st0 = (Ok snapshot, Sample.st0)
  /\ id snapshot = "abc"
  /\ result r = Ok (Some (toDocumentWithId snapshot))
  /\ toDocumentWithId snapshot !! "documentId" = Some (VStr "zzz")
  /\ toDocumentWithId snapshot !! "documentId" <> Some (VStr (id snapshot)).
Proof. repeat split; try reflexivity. by vm_compute. Qed.

(** C8: when the snapshot's stored data has a field named [documentId],
    [toDocumentWithId] returns that stored value under [documentId]: the
    spread of the data, coming after the attached id, overwrites it.  So
    whenever the stored value differs from the snapshot's id, the result
    does not carry the snapshot's id. *)
Theorem toDocumentWithId_stored_documentId_wins
    (document : DocumentSnapshot) (d : Obj) (v : Value) :
  data document = Some d ->
  d !! "documentId" = Some v ->
  toDocumentWithId document !! "documentId" = Some v
  /\ (v <> VStr (id document) ->
      toDocumentWithId document !! "documentId" <> Some (VStr (id document))).
Proof.
  intros Hd Hv.
  assert (toDocumentWithId document !! "documentId" = Some v) as ->.
  { by rewrite toDocumentWithId_lookup, Hd; simpl; rewrite Hv. }
  split; [done|congruence].
Qed.

Lemma toDocumentWithId_stored_documentId_wins_witness :
  toDocumentWithId (mkSnapshot "abc" true (Some Sample.ann)) !! "documentId"
    = Some (VStr "zzz")
  /\ (VStr "zzz" <> VStr "abc" ->
      toDocumentWithId (mkSnapshot "abc" true (Some Sample.ann)) !! "documentId"
        <> Some (VStr "abc")).
Proof.
  apply (toDocumentWithId_stored_documentId_wins
           (mkSnapshot "abc" true (Some Sample.ann)) Sample.ann (VStr "zzz"));
    reflexivity.
Defined.

(** ** Which client calls each method makes *)

Ltac answer :=
  match goal with
  | |- context [decide (?s = "")] => destruct (decide (s = ""))
  | |- context [crypto_randomUUID ?env ?st] =>
      destruct (crypto_randomUUID env st) as [? ?]
  | |- context [client_runTransaction ?env ?fs ?f ?st] =>
      destruct (client_runTransaction env fs f st) as [[?|?] ?]
  | |- context [client ?env ?c ?st] =>
      destruct (client env c st) as [[?|?] ?]
  end.

Ltac answers := repeat (simpl; answer); simpl.

Ltac expected_calls :=
  unfold follows; simpl;
  first [ reflexivity | eexists; reflexivity ].

Lemma repository_method_follows {St R} (env : Env St) (m : RepositoryMethod R)
    (self : FirestoreRepositoryBase) (st : St) :
  follows (run env (repository_method m) self st)
          (repository_delegation env m self st).
Proof.
  destruct m as [R [data [s|]|documentId data|documentId|documentId|documentId]
                |R execute|];
    simpl; unfold create, documentId_or_random, id_in_use, returned_reference;
    answers; expected_calls.
Qed.

Lemma builder_method_follows {St R} (env : Env St) (m : BuilderMethod R)
    (self : FirestoreQueryBuilder) (st : St) :
  follows (run env (builder_method m) self st) (builder_delegation env m self st).
Proof.
  destruct m as [[field op v|field d|n|n|s|s|s|s|]|onNext onError|R []];
    simpl; unfold returned_limit; answers; expected_calls.
Qed.

(** C2 as stated fails: on the in-memory client, [create] with an id makes
    three client calls ([doc], [set], [get]), not one. *)
Lemma create_is_not_a_single_delegation :
  let r := run InMemory.env (create Sample.bob (Some "ghi"))
               Sample.repository Sample.st0 in
  (calls r).*1
    = [Invoked (Collection_doc Sample.accounts "ghi");
       Invoked (Doc_set (mkDocRef Sample.accounts "ghi") Sample.bob);
       Invoked (Doc_get (mkDocRef Sample.accounts "ghi"))]
  /\ ~ single_delegation r.
Proof.
  split; [reflexivity|]. intros [en Hen]. vm_compute in Hen. discriminate Hen.
Qed.

Lemma callback_meaning_await {St R} (env : Env St)
    (execute : Transaction -> Prog unit R) (t : Transaction) (st : St) :
  callback_meaning env (fun transaction => r <- execute transaction ;; Ret r) t st
  = callback_meaning env execute t st.
Proof. unfold callback_meaning. by rewrite run_bind_Ret. Qed.

(** C2, amended: every repository and query-builder method only delegates.
    The client calls a method makes are, in order, the calls listed for it
    by [repository_delegation] and [builder_delegation] (for instance
    [doc], [set], [get] for [create]; [limit(1)], [get] for [getOne]; the
    same-named query method for the eight query modifiers; none for [clear]
    and [createQueryBuilder]), made on the receiver's collection or query
    and on what the client returned, with the caller's arguments: all of
    them when the method resolves, and an initial part of them when it
    rejects.  No other client call is made.  For [runTransaction] the one
    call is the client's [runTransaction], handed a callback that behaves,
    on every transaction and client state, as the caller's [execute]; the
    method resolves or rejects as that call does. *)
Theorem methods_delegate_in_order {St} (env : Env St) (st : St) :
  (forall R (m : RepositoryMethod R) (self : FirestoreRepositoryBase),
     follows (run env (repository_method m) self st)
             (repository_delegation env m self st))
  /\ (forall R (m : BuilderMethod R) (self : FirestoreQueryBuilder),
        follows (run env (builder_method m) self st)
                (builder_delegation env m self st))
  /\ (forall R (execute : Transaction -> Prog unit R)
             (self : FirestoreRepositoryBase),
        exists callback : Transaction -> St -> Result R * St,
          (forall t s, callback t s = callback_meaning env execute t s)
          /\ run env (runTransaction execute) self st
             = match client_runTransaction env (firestore self) callback st with
               | (Ok x, st') =>
                   mkRun (Ok x) self st'
                         [(Invoked_runTransaction (firestore self), None)]
               | (Err e, st') =>
                   mkRun (Err e) self st'
                         [(Invoked_runTransaction (firestore self), Some e)]
               end).
Proof.
  split_and!.
  - intros R m self. apply repository_method_follows.
  - intros R m self. apply builder_method_follows.
  - intros R execute self.
    exists (callback_meaning env
              (fun transaction => r <- execute transaction ;; Ret r)).
    split; [intros t s; apply callback_meaning_await|].
    unfold runTransaction, callback_meaning. simpl. by answer.
Qed.

Example runTransaction_runs_the_callback :
  InMemory.documents
    (client_after (run InMemory.env (runTransaction Sample.overwrite)
                       Sample.repository Sample.st0))
    !! ("accounts", "abc")
  = Some Sample.bob.
Proof. reflexivity. Qed.

(** ** The query builder *)

Lemma chain_run {St} (env : Env St) (c : Chain) (self : FirestoreQueryBuilder)
    (st : St) :
  run env (chain c) self st
  = match chain_client_call c (query self) with
    | Some call =>
        one_call env call self st
                 (fun q' => {| reference := reference self; query := q' |})
                 (fun _ => This)
    | None => mkRun (Ok This) (new_FirestoreQueryBuilder (reference self)) st []
    end.
Proof. destruct c; simpl; unfold one_call; try answer; reflexivity. Qed.

Lemma chain_client_call_None (c : Chain) (q : Query) :
  chain_client_call c q = None <-> c = Clear.
Proof. by destruct c. Qed.

Lemma head_unless_empty {A} (documents : QuerySnapshot)
    (f : DocumentSnapshot -> A) :
  (if negb (empty documents) then f <$> head (docs documents) else None)
  = f <$> head (docs documents).
Proof. unfold empty. by destruct (docs documents). Qed.

Lemma materialize_run {St R} (env : Env St) (m : Materialize R)
    (self : FirestoreQueryBuilder) (st : St) :
  run env (materialize m) self st = executed env m self st.
Proof.
  destruct m; simpl; unfold executed, and_then, one_call; answers;
    try reflexivity.
  by rewrite head_unless_empty.
Qed.

(** C3 as stated fails for [clear]: on a builder that has accumulated a
    filter, [clear] makes no client call at all; it puts the collection
    reference back as the query. *)
Lemma clear_applies_no_client_query_method :
  let r := run InMemory.env (chain Clear) Sample.filtered Sample.st0 in
  r = mkRun (Ok This) (new_FirestoreQueryBuilder Sample.accounts) Sample.st0 []
  /\ ~ applies_client_query_method r.
Proof.
  split; [reflexivity|]. intros (call & out & Hcalls). discriminate Hcalls.
Qed.

(** C3, amended: the query builder has nine chaining methods ([where],
    [orderBy], [offset], [limit], [startAt], [startAfter], [endAt],
    [endBefore], [clear]) and four materialization methods ([getOne],
    [getMany], [getManyAndCount], [count]).  Each of the first eight
    chaining methods makes one client call, the same-named query method on
    the accumulated query with the caller's arguments ([orderBy] with
    direction [asc] when none is given), stores the query the client
    returns and returns the builder; when the client call throws, the
    builder is left as it was.  [clear] makes no client call: it stores the
    collection reference as the query and returns the builder.  [getMany],
    [getManyAndCount] and [count] call [get] on the accumulated query;
    [getOne] calls [get] on the query the client returns from [limit(1)] of
    the accumulated query.  None of the four changes the builder. *)
Theorem query_builder_is_pass_through {St} (env : Env St)
    (self : FirestoreQueryBuilder) (st : St) :
  (length chain_names = 9%nat /\ NoDup chain_names
   /\ forall c, chain_name c ∈ chain_names)
  /\ (length materialize_names = 4%nat /\ NoDup materialize_names
      /\ forall R (m : Materialize R), materialize_name m ∈ materialize_names)
  /\ (forall c,
        run env (chain c) self st
        = match chain_client_call c (query self) with
          | Some call =>
              one_call env call self st
                       (fun q' => {| reference := reference self; query := q' |})
                       (fun _ => This)
          | None =>
              mkRun (Ok This) (new_FirestoreQueryBuilder (reference self)) st []
          end)
  /\ (forall c q, chain_client_call c q = None <-> c = Clear)
  /\ (forall R (m : Materialize R),
        run env (materialize m) self st = executed env m self st
        /\ this_after (run env (materialize m) self st) = self).
Proof.
  split_and!.
  - reflexivity.
  - apply (bool_decide_unpack _). by vm_compute.
  - intros c. destruct c; unfold chain_names; set_solver.
  - reflexivity.
  - apply (bool_decide_unpack _). by vm_compute.
  - intros R m. destruct m; unfold materialize_names; set_solver.
  - intros c. apply chain_run.
  - apply chain_client_call_None.
  - intros R m. split; [apply materialize_run|].
    destruct m; simpl; answers; reflexivity.
Qed.

(** ** The decorator and the repository's constructor *)

Lemma defineMetadata_own (key value : string) (target : Constructor)
    (m : Metadata) :
  defineMetadata key value target m !! ctor_id target
    ≫= (fun kv => kv !! key) = Some value.
Proof.
  unfold defineMetadata. rewrite lookup_insert_eq. simpl.
  apply lookup_insert_eq.
Qed.

Lemma getMetadata_own (key value : string) (target : Constructor)
    (m : Metadata) :
  m !! ctor_id target ≫= (fun kv => kv !! key) = Some value ->
  getMetadata key target m = Some value.
Proof. destruct target; simpl; by intros ->. Qed.

(** C4: for every class [C] and string [n], [FirestoreDocument(n)] applied
    to [C] stores [n] under the metadata key on [C]'s constructor;
    constructing a repository with entity type [C] then reads back exactly
    [n], makes the one client call [firestore.collection(n)], and binds the
    repository's collection to what the client returns. *)
Theorem FirestoreDocument_round_trip {St} (env : Env St) (KEY : string)
    (C : Constructor) (n : string) (m : Metadata) (fs : Firestore) (st : St) :
  let m' := FirestoreDocument KEY n C m in
  m' !! ctor_id C ≫= (fun kv => kv !! KEY) = Some n
  /\ getMetadata KEY C m' = Some n
  /\ run env (new_FirestoreRepositoryBase KEY m' fs C) tt st
     = one_call env (Firestore_collection fs (Some n)) tt st (fun _ => tt)
                (fun c => {| firestore := fs; collection := c |}).
Proof.
  intros m'. assert (getMetadata KEY C m' = Some n) as Hget.
  { apply getMetadata_own, defineMetadata_own. }
  split_and!.
  - apply defineMetadata_own.
  - exact Hget.
  - unfold new_FirestoreRepositoryBase, one_call. rewrite Hget. simpl.
    by answer.
Qed.

Example decorated_account_repository :
  let m := FirestoreDocument Sample.KEY "accounts" Sample.Account ∅ in
  run InMemory.env
      (new_FirestoreRepositoryBase Sample.KEY m Sample.db Sample.Account)
      tt Sample.st0
  = mkRun (Ok Sample.repository) tt Sample.st0
          [(Invoked (Firestore_collection Sample.db (Some "accounts")), None)].
Proof. reflexivity. Qed.

(** ** The repository's methods *)

Lemma crud_delegation_on_own_reference {St R} (env : Env St) (m : Crud R)
    (self : FirestoreRepositoryBase) (st : St) :
  Forall (on_own_reference (collection self) (crud_reference env m self st))
         (repository_delegation env (CrudMethod m) self st).
Proof.
  destruct m; simpl; try destruct (id_in_use env documentId st);
    repeat constructor.
Qed.

Lemma on_own_reference_target (c : CollectionReference) (ref : DocumentReference)
    (inv : Invocation) :
  on_own_reference c ref inv ->
  target_collection inv = Some c \/ target_collection inv = Some (doc_parent ref).
Proof.
  destruct inv as [X call|fs]; [|done].
  destruct call; simpl; try done; intros ->; auto.
Qed.

Lemma crud_keeps_this {St R} (env : Env St) (m : Crud R)
    (self : FirestoreRepositoryBase) (st : St) :
  this_after (run env (crud m) self st) = self.
Proof.
  destruct m as [data [s|]|documentId data|documentId|documentId|documentId];
    simpl; unfold create, documentId_or_random; answers; reflexivity.
Qed.

(** C5 as stated fails: against a client that reads an id holding [/] as
    a path (as [collection.doc] does), [create] with the id ["x/sub/y"] on
    the repository of [accounts] writes and reads the document [y] of the
    collection [accounts/x/sub]. *)
Lemma create_with_path_id_leaves_collection :
  let r := run Paths.env (create Sample.bob (Some "x/sub/y"))
               Sample.repository Sample.st0 in
  let elsewhere := {| doc_parent := {| coll_path := "accounts/x/sub" |};
                      doc_id := "y" |} in
  (calls r).*1
    = [Invoked (Collection_doc Sample.accounts "x/sub/y");
       Invoked (Doc_set elsewhere Sample.bob); Invoked (Doc_get elsewhere)]
  /\ InMemory.documents (client_after r) !! ("accounts/x/sub", "y")
     = Some Sample.bob
  /\ ~ Forall (fun en : Entry =>
                target_collection en.1 = Some (collection Sample.repository))
              (calls r).
Proof.
  split_and!; [reflexivity|reflexivity|].
  intros Hall. apply Forall_cons in Hall as [_ Hall].
  apply Forall_cons in Hall as [Hset _]. discriminate Hset.
Qed.

(** C5, amended: the repository has five CRUD methods ([create],
    [update], [findOneById], [deleteById], [existsById]); none of them
    rebinds the collection bound at construction, and each works through it
    alone: its client calls are [doc(id)] on that collection followed by
    calls on the document reference the client returned from it (all of
    them when the method resolves, the first few when it rejects).  So
    every call operates on the repository's collection or on the collection
    that returned reference lies in: no other collection is touched, and
    none but the repository's own whenever the client resolves the id to a
    document of that collection. *)
Theorem crud_works_through_own_collection {St R} (env : Env St) (m : Crud R)
    (self : FirestoreRepositoryBase) (st : St) :
  let r := run env (crud m) self st in
  let ref := crud_reference env m self st in
  (length crud_names = 5%nat /\ NoDup crud_names /\ crud_name m ∈ crud_names)
  /\ this_after r = self
  /\ follows r (repository_delegation env (CrudMethod m) self st)
  /\ Forall (on_own_reference (collection self) ref)
            (repository_delegation env (CrudMethod m) self st)
  /\ Forall (fun en : Entry =>
               target_collection en.1 = Some (collection self)
               \/ target_collection en.1 = Some (doc_parent ref))
            (calls r).
Proof.
  intros r ref.
  pose proof (repository_method_follows env (CrudMethod m) self st) as Hf.
  change (repository_method (CrudMethod m)) with (crud m) in Hf. fold r in Hf.
  pose proof (crud_delegation_on_own_reference env m self st) as Hown.
  fold ref in Hown.
  split_and!.
  - reflexivity.
  - apply (bool_decide_unpack _). by vm_compute.
  - destruct m; unfold crud_names; set_solver.
  - apply crud_keeps_this.
  - exact Hf.
  - exact Hown.
  - apply Forall_fmap with (f := fst) (P := fun inv =>
      target_collection inv = Some (collection self)
      \/ target_collection inv = Some (doc_parent ref)).
    assert (Forall (fun inv => target_collection inv = Some (collection self)
                               \/ target_collection inv = Some (doc_parent ref))
                   (repository_delegation env (CrudMethod m) self st)) as Ht.
    { eapply Forall_impl; [exact Hown|]. intros inv. apply on_own_reference_target. }
    unfold follows in Hf. destruct (result r).
    + by rewrite Hf.
    + destruct Hf as [rest Hrest]. rewrite Hrest in Ht.
      by apply Forall_app in Ht as [Ht _].
Qed.

(** With the in-memory client, which returns the document of that id in
    the collection, [update] stays in [accounts]. *)
Example update_stays_in_accounts :
  Forall (fun en : Entry => target_collection en.1 = Some Sample.accounts)
         (calls (run InMemory.env (crud (Update "abc" Sample.bob))
                     Sample.repository Sample.st0)).
Proof. repeat constructor. Qed.

(** ** Errors *)






(** ** Transactions *)

(** C7: with a client that cannot tell apart two callbacks that behave
    alike, [runTransaction(execute)] runs exactly as the client's
    [runTransaction] called directly with [execute]: it is that one client
    call; it resolves with the value the client's transaction resolves with
    and rejects with the error the client's transaction rejects with; the
    repository is unchanged and the client is left as its own transaction
    left it. *)
Theorem runTransaction_is_the_clients {St R} (env : Env St)
    (execute : Transaction -> Prog unit R) (self : FirestoreRepositoryBase)
    (st : St) :
  callback_extensional env ->
  run env (runTransaction execute) self st
    = run env (RunTx (firestore self) execute Ret) self st
  /\ run env (runTransaction execute) self st
     = match client_runTransaction env (firestore self)
               (callback_meaning env execute) st with
       | (Ok x, st') =>
           mkRun (Ok x) self st' [(Invoked_runTransaction (firestore self), None)]
       | (Err e, st') =>
           mkRun (Err e) self st'
                 [(Invoked_runTransaction (firestore self), Some e)]
       end.
Proof.
  intros Hext.
  assert (client_runTransaction env (firestore self)
            (callback_meaning env
               (fun transaction => r <- execute transaction ;; Ret r)) st
          = client_runTransaction env (firestore self)
              (callback_meaning env execute) st) as Hsame.
  { apply Hext. intros t s. apply callback_meaning_await. }
  unfold runTransaction. simpl. unfold callback_meaning in Hsame.
  rewrite Hsame. unfold callback_meaning.
  split; by answer.
Qed.

Lemma runTransaction_is_the_clients_witness :
  run InMemory.env (runTransaction Sample.overwrite) Sample.repository Sample.st0
    = run InMemory.env (RunTx Sample.db Sample.overwrite Ret)
          Sample.repository Sample.st0
  /\ run InMemory.env (runTransaction Sample.overwrite) Sample.repository Sample.st0
     = match client_runTransaction InMemory.env Sample.db
               (callback_meaning InMemory.env Sample.overwrite) Sample.st0 with
       | (Ok x, st') =>
           mkRun (Ok x) Sample.repository st'
                 [(Invoked_runTransaction Sample.db, None)]
       | (Err e, st') =>
           mkRun (Err e) Sample.repository st'
                 [(Invoked_runTransaction Sample.db, Some e)]
       end.
Proof.
  apply (runTransaction_is_the_clients InMemory.env Sample.overwrite
           Sample.repository Sample.st0).
  intros X fs f g st Hfg. simpl. unfold InMemory.transact.
  rewrite (Hfg (TransactionHandle 0) st). reflexivity.
Defined.

Example runTransaction_resolves_with_callback_value :
  result (run InMemory.env (runTransaction Sample.overwrite)
              Sample.repository Sample.st0) = Ok true.
Proof. reflexivity. Qed.

(** ** What the builder keeps between calls *)

Lemma chain_keeps_reference {St} (env : Env St) (c : Chain)
    (self : FirestoreQueryBuilder) (st : St) :
  reference (this_after (run env (chain c) self st)) = reference self.
Proof.
  rewrite chain_run. destruct (chain_client_call c (query self)); [|done].
  unfold one_call. by answer.
Qed.

Lemma chain_all_keeps_reference {St} (env : Env St) (cs : list Chain)
    (self : FirestoreQueryBuilder) (st : St) :
  reference (this_after (run env (chain_all cs) self st)) = reference self.
Proof.
  revert self st. induction cs as [|c cs IH]; intros self st; [done|].
  simpl. rewrite run_bind. unfold and_then.
  pose proof (chain_keeps_reference env c self st) as Hc.
  destruct (run env (chain c) self st) as [[[]|e] self' st' cs']; simpl in *.
  - by rewrite IH.
  - done.
Qed.

Lemma getOne_keeps_this {St} (env : Env St) (self : FirestoreQueryBuilder)
    (st : St) :
  this_after (run env getOne self st) = self.
Proof. simpl. answers; reflexivity. Qed.

Lemma getOne_keeps_client {St} (env : Env St) (self : FirestoreQueryBuilder)
    (st : St) :
  reads_leave_client_unchanged env ->
  client_after (run env getOne self st) = st.
Proof.
  intros [Hlimit Hget]. simpl.
  pose proof (Hlimit (query self) 1 st) as H1.
  destruct (client env (Query_limit (query self) 1) st) as [[q1|e] st1];
    simpl in *; subst st1; [|done].
  pose proof (Hget q1 st) as H2.
  destruct (client env (Query_get q1) st) as [[d|e] st2]; simpl in *; by subst.
Qed.

(** C9: for every builder, whatever chaining calls brought it to its
    present state, [getOne] leaves its fields, and so its accumulated
    query, as they were: the limit of 1 is applied to a derived query only.
    With a client whose [limit] and [get] do not change what it holds, any
    materialization made after [getOne] ([getMany], say) runs exactly as it
    would have without the [getOne]: same client calls, same result. *)
Theorem getOne_leaves_query_unchanged {St} (env : Env St)
    (self : FirestoreQueryBuilder) (st : St) :
  reads_leave_client_unchanged env ->
  let r := run env getOne self st in
  this_after r = self
  /\ query (this_after r) = query self
  /\ forall R (m : Materialize R),
       run env (materialize m) (this_after r) (client_after r)
       = run env (materialize m) self st.
Proof.
  intros Hread r. subst r.
  rewrite getOne_keeps_this, getOne_keeps_client by done. done.
Qed.

Lemma getOne_leaves_query_unchanged_witness :
  let r := run InMemory.env getOne Sample.filtered Sample.st0 in
  this_after r = Sample.filtered
  /\ query (this_after r) = query Sample.filtered
  /\ forall R (m : Materialize R),
       run InMemory.env (materialize m) (this_after r) (client_after r)
       = run InMemory.env (materialize m) Sample.filtered Sample.st0.
Proof.
  apply (getOne_leaves_query_unchanged InMemory.env Sample.filtered Sample.st0).
  split; intros; reflexivity.
Defined.

Example getMany_after_getOne :
  result (run InMemory.env (getOne ;;; getMany) Sample.filtered Sample.st0)
  = Ok [ {[ "documentId" := VStr "def"; "displayName" := VStr "Bob" ]} ].
Proof. by vm_compute. Qed.

(** C10: take a builder constructed over a collection and any sequence of
    chaining calls made on it (completed, or cut short by a call that
    threw).  [clear()] then makes no client call and leaves the builder
    with exactly the fields of a freshly constructed builder over the same
    collection; so whatever is called next runs as it would on a fresh
    builder. *)
Theorem clear_resets_to_fresh_builder {St} (env : Env St)
    (c : CollectionReference) (cs : list Chain) (st0 st : St) :
  let self :=
    this_after (run env (chain_all cs) (new_FirestoreQueryBuilder c) st0) in
  run env clear self st = mkRun (Ok This) (new_FirestoreQueryBuilder c) st []
  /\ forall R (next : Prog FirestoreQueryBuilder R),
       run env (clear ;;; next) self st
       = run env next (new_FirestoreQueryBuilder c) st.
Proof.
  intros self.
  assert (reference self = c) as Href.
  { subst self. by rewrite chain_all_keeps_reference. }
  assert (run env clear self st
          = mkRun (Ok This) (new_FirestoreQueryBuilder c) st []) as Hclear.
  { simpl. by rewrite Href. }
  split; [done|]. intros R next.
  rewrite run_bind, Hclear. unfold and_then. simpl. apply run_eta.
Qed.

Example clear_after_where_and_limit :
  let chained :=
    chain_all [Where "displayName" OpEq (VStr "Ann"); Limit 1; Clear] in
  result (run InMemory.env (chained ;;; count)
              (new_FirestoreQueryBuilder Sample.accounts) Sample.st0)
  = Ok 2.
Proof. by vm_compute. Qed.

(** ** Further properties of [toDocumentWithId] *)

(** X1: the fields of [toDocumentWithId(document)] are the stored fields
    and [documentId], nothing else; every stored field, whatever its name,
    keeps its stored value; for a snapshot without data (a document that
    does not exist) the result is the object with the single field
    [documentId] set to the snapshot's id. *)
Theorem toDocumentWithId_fields (document : DocumentSnapshot) :
  dom (toDocumentWithId document)
    = {[ "documentId" ]} ∪ dom (default ∅ (data document))
  /\ (forall k v, default ∅ (data document) !! k = Some v ->
                  toDocumentWithId document !! k = Some v)
  /\ (data document = None ->
      toDocumentWithId document = {[ "documentId" := VStr (id document) ]}).
Proof.
  split_and!.
  - unfold toDocumentWithId, spread. rewrite dom_union_L, dom_singleton_L.
    apply (comm_L (∪)).
  - intros k v Hk. by rewrite toDocumentWithId_lookup, Hk.
  - intros Hd. unfold toDocumentWithId, spread. rewrite Hd. simpl.
    by rewrite (left_id_L ∅ (∪)).
Qed.

(** X2: when the stored fields have none named [documentId], removing
    [documentId] from [toDocumentWithId(document)] gives back exactly the
    stored fields, and [documentId] holds the snapshot's id: the reshaping
    loses nothing and can be undone. *)
Theorem toDocumentWithId_strip (document : DocumentSnapshot) :
  default ∅ (data document) !! "documentId" = None ->
  delete "documentId" (toDocumentWithId document) = default ∅ (data document)
  /\ toDocumentWithId document !! "documentId" = Some (VStr (id document)).
Proof.
  intros Hfresh. split.
  - apply map_eq. intros k. rewrite lookup_delete, toDocumentWithId_lookup.
    destruct (decide ("documentId" = k)) as [<-|Hk]; [done|].
    destruct (default ∅ (data document) !! k); [done|].
    by destruct (decide (k = "documentId")).
  - by rewrite toDocumentWithId_lookup, Hfresh.
Qed.

Lemma toDocumentWithId_strip_witness :
  delete "documentId" (toDocumentWithId (mkSnapshot "def" true (Some Sample.bob)))
    = Sample.bob
  /\ toDocumentWithId (mkSnapshot "def" true (Some Sample.bob)) !! "documentId"
     = Some (VStr "def").
Proof.
  apply (toDocumentWithId_strip (mkSnapshot "def" true (Some Sample.bob))).
  reflexivity.
Defined.

(** ** Further properties of the repository's methods *)

(** X3: an empty [documentId] passed to [create] is treated as a missing
    one: the run is the one of [create(data)], and the first client call is
    [doc] with the UUID the runtime produces. *)
Theorem create_empty_id_as_missing {St} (env : Env St) (data : Obj)
    (self : FirestoreRepositoryBase) (st : St) :
  let r := run env (create data (Some "")) self st in
  r = run env (create data None) self st
  /\ exists out,
       head (calls r)
       = Some (Invoked (Collection_doc (collection self)
                                       (crypto_randomUUID env st).1), out).
Proof.
  intros r. subst r. unfold create, documentId_or_random.
  destruct (decide ("" = "")) as [_|Hne]; [|done].
  split; [done|]. answers; eexists; reflexivity.
Qed.

(** X4: with a non-empty [documentId], [create] never asks the runtime for
    a UUID: whatever [crypto.randomUUID] would return, the run is the same,
    and its first client call is [doc] with the caller's id. *)
Theorem create_given_id_ignores_uuid {St} (env : Env St)
    (uuid : St -> string * St) (data : Obj) (i : string)
    (self : FirestoreRepositoryBase) (st : St) :
  i <> "" ->
  let r := run env (create data (Some i)) self st in
  run (with_randomUUID uuid env) (create data (Some i)) self st = r
  /\ exists out,
       head (calls r) = Some (Invoked (Collection_doc (collection self) i), out).
Proof.
  intros Hi r. subst r. unfold create, documentId_or_random.
  destruct (decide (i = "")) as [|_]; [done|].
  split; simpl; answers; try reflexivity; eexists; reflexivity.
Qed.

Lemma create_given_id_ignores_uuid_witness :
  let r := run InMemory.env (create Sample.bob (Some "ghi"))
               Sample.repository Sample.st0 in
  run (with_randomUUID (fun st => ("other", st)) InMemory.env)
      (create Sample.bob (Some "ghi")) Sample.repository Sample.st0 = r
  /\ exists out,
       head (calls r) = Some (Invoked (Collection_doc Sample.accounts "ghi"), out).
Proof.
  apply (create_given_id_ignores_uuid InMemory.env (fun st => ("other", st))
           Sample.bob "ghi" Sample.repository Sample.st0).
  discriminate.
Defined.

(** X5: [existsById] and [findOneById] agree: on the same client state
    they make the same client calls and leave the client in the same
    state; [existsById] rejects exactly when [findOneById] does, with the
    same error, and resolves to [true] exactly when [findOneById] resolves
    with a document rather than [undefined]. *)
Theorem existsById_agrees_with_findOneById {St} (env : Env St)
    (documentId : string) (self : FirestoreRepositoryBase) (st : St) :
  let found := run env (findOneById documentId) self st in
  let there := run env (existsById documentId) self st in
  calls there = calls found
  /\ client_after there = client_after found
  /\ result there
     = match result found with
       | Ok o => Ok (bool_decide (is_Some o))
       | Err e => Err e
       end.
Proof.
  simpl. answers; split_and!; try reflexivity.
  by destruct (exists_ _).
Qed.








(** An id that is a path falls outside: [deleteById] of a path to a
    collection is rejected by the path-reading client at [doc]. *)
Example deleteById_of_collection_path_rejects :
  result (run Paths.env (deleteById "x/sub") Sample.repository Sample.st0)
  = Err InMemory.invalid_path.
Proof. reflexivity. Qed.

(** ** Further properties of the query builder *)

(** X8: [getManyAndCount] is [count] and [getMany] in one client call: on
    the same client state the three make the same single [get] call, and
    [getManyAndCount] resolves with the number [count] resolves with and
    the list [getMany] resolves with, or rejects with the error they reject
    with. *)
Theorem getManyAndCount_is_count_and_getMany {St} (env : Env St)
    (self : FirestoreQueryBuilder) (st : St) :
  let both := run env getManyAndCount self st in
  let many := run env getMany self st in
  let number := run env count self st in
  calls both = calls many /\ calls both = calls number
  /\ (exists out, calls both = [(Invoked (Query_get (query self)), out)])
  /\ client_after both = client_after many
  /\ result both
     = match result number, result many with
       | Ok n, Ok d => Ok {| count_ := n; data_ := d |}
       | Err e, _ | _, Err e => Err e
       end.
Proof. simpl. answers; split_and!; try reflexivity; eexists; reflexivity. Qed.

Lemma head_fmap {A B} (f : A -> B) (l : list A) : head (f <$> l) = f <$> head l.
Proof. by destruct l. Qed.

(** X9: [getOne()] gives the first element of what [limit(1)] followed by
    [getMany()] gives, with the same client calls and the same client state
    afterwards; but [getOne] leaves the builder as it was, where [limit(1)]
    stores the limited query in it. *)
Theorem getOne_is_head_of_limit_getMany {St} (env : Env St)
    (self : FirestoreQueryBuilder) (st : St) :
  let one := run env getOne self st in
  let many := run env (limit 1 ;;; getMany) self st in
  result one
    = match result many with
      | Ok l => Ok (head l)
      | Err e => Err e
      end
  /\ calls one = calls many
  /\ client_after one = client_after many
  /\ this_after one = self.
Proof.
  simpl. answers; split_and!; try reflexivity.
  by rewrite head_unless_empty, head_fmap.
Qed.

(** X10: no method of the builder changes its [reference]; a method that
    rejects leaves the builder exactly as it was (a chaining method assigns
    the query only after the client call returned); and [onSnapshot] and the
    four materialization methods never change the builder at all. *)
Theorem builder_methods_frame {St R} (env : Env St) (m : BuilderMethod R)
    (self : FirestoreQueryBuilder) (st : St) :
  let r := run env (builder_method m) self st in
  reference (this_after r) = reference self
  /\ match result r with Ok _ => True | Err _ => this_after r = self end
  /\ match m with Chained _ => True | _ => this_after r = self end.
Proof.
  destruct m as [[field op v|field d|n|n|s|s|s|s|]|onNext onError|R []];
    simpl; answers; done.
Qed.

Lemma chain_call_count {St} (env : Env St) (c : Chain)
    (self : FirestoreQueryBuilder) (st : St) :
  let r := run env (chain c) self st in
  match result r with
  | Ok _ => length (calls r) = if makes_call c then 1%nat else 0%nat
  | Err _ => length (calls r) = 1%nat /\ makes_call c = true
  end.
Proof.
  rewrite chain_run. destruct c; simpl; unfold one_call; try answer; done.
Qed.

Lemma filter_makes_call_cons (c : Chain) (cs : list Chain) :
  length (filter (fun c => makes_call c = true) (c :: cs))
  = ((if makes_call c then 1 else 0)
     + length (filter (fun c => makes_call c = true) cs))%nat.
Proof.
  destruct (makes_call c) eqn:Hc.
  - by rewrite filter_cons_True.
  - rewrite filter_cons_False; [done|]. by rewrite Hc.
Qed.

(** X12: a chain makes at most one client call per chained method other
    than [clear], and none besides: exactly that many when the chain
    completes, fewer only when a call threw. *)
Theorem chain_all_call_count {St} (env : Env St) (cs : list Chain)
    (self : FirestoreQueryBuilder) (st : St) :
  let r := run env (chain_all cs) self st in
  let expected := length (filter (fun c => makes_call c = true) cs) in
  (length (calls r) <= expected)%nat
  /\ match result r with
     | Ok _ => length (calls r) = expected
     | Err _ => True
     end.
Proof.
  revert self st. induction cs as [|c cs IH]; intros self st; [done|].
  cbn zeta. rewrite filter_makes_call_cons.
  change (chain_all (c :: cs)) with (chain c ;;; chain_all cs).
  rewrite run_bind. unfold and_then.
  pose proof (chain_call_count env c self st) as Hc. cbn zeta in Hc.
  destruct (run env (chain c) self st) as [[[]|e] self1 st1 l1]; simpl in *.
  - destruct (IH self1 st1) as [IHle IHeq]. rewrite length_app, Hc.
    split; [lia|].
    destruct (result (run env (chain_all cs) self1 st1)); [lia|done].
  - destruct Hc as [-> ->]. split; [lia|done].
Qed.

Lemma chain_client_call_target (c : Chain) (q : Query) (call : ClientCall Query) :
  chain_client_call c q = Some call ->
  target_collection (Invoked call) = Some (query_root q).
Proof. destruct c; simpl; intros [= <-]; done. Qed.

Lemma chain_rooted {St} (env : Env St) (c : Chain)
    (self : FirestoreQueryBuilder) (st : St) :
  queries_keep_root env -> rooted self ->
  let r := run env (chain c) self st in
  rooted (this_after r) /\ all_on (reference self) r.
Proof.
  intros Hroot Hself r. subst r. rewrite chain_run. unfold all_on.
  destruct (chain_client_call c (query self)) as [call|] eqn:Hcall.
  - pose proof (chain_client_call_target _ _ _ Hcall) as Htarget.
    rewrite Hself in Htarget. unfold one_call.
    destruct (client env call st) as [[q'|e] st'] eqn:Hq; simpl.
    + split; [|by repeat constructor].
      unfold rooted; simpl. rewrite <- Hself. by eapply Hroot.
    + split; [done|by repeat constructor].
  - simpl. split; [done|constructor].
Qed.

Lemma chain_all_rooted {St} (env : Env St) (cs : list Chain)
    (self : FirestoreQueryBuilder) (st : St) :
  queries_keep_root env -> rooted self ->
  let r := run env (chain_all cs) self st in
  rooted (this_after r) /\ all_on (reference self) r.
Proof.
  intros Hroot. revert self st.
  induction cs as [|c cs IH]; intros self st Hself; simpl.
  - split; [done|constructor].
  - rewrite run_bind. unfold and_then.
    destruct (chain_rooted env c self st Hroot Hself) as [Hr Hon].
    pose proof (chain_keeps_reference env c self st) as Href.
    unfold all_on in *.
    destruct (run env (chain c) self st) as [[[]|e] self1 st1 l1]; simpl in *.
    + destruct (IH self1 st1 Hr) as [Hr2 Hon2]. split; [done|].
      apply Forall_app. split; [done|]. by rewrite <- Href.
    + done.
Qed.

Lemma builder_method_all_on {St R} (env : Env St) (m : BuilderMethod R)
    (self : FirestoreQueryBuilder) (st : St) :
  queries_keep_root env -> rooted self ->
  all_on (reference self) (run env (builder_method m) self st).
Proof.
  intros Hroot Hself.
  destruct m as [c|onNext onError|R m].
  - by apply chain_rooted.
  - unfold all_on. simpl. answers; repeat constructor; simpl; by f_equal.
  - unfold all_on.
    destruct m; simpl;
      try (answers; repeat constructor; simpl; by f_equal).
    destruct (client env (Query_limit (query self) 1) st) as [[q1|e] st1] eqn:Hq;
      simpl; [|repeat constructor; simpl; by f_equal].
    assert (query_root q1 = reference self) as Hq1.
    { rewrite <- Hself. by apply (Hroot (Limit 1) _ _ _ _ _ eq_refl Hq). }
    answers; repeat constructor; simpl; by f_equal.
Qed.

(** X13: with a client whose query methods return queries on the same
    collection, a builder obtained from [createQueryBuilder] only ever
    works on the repository's collection: [createQueryBuilder] itself makes
    no client call and cannot reject, and every client call of any chain of
    calls on that builder, and of any method called after the chain,
    operates on the repository's collection. *)
Theorem builder_calls_stay_in_collection {St R} (env : Env St)
    (self : FirestoreRepositoryBase) (cs : list Chain) (m : BuilderMethod R)
    (st0 st st' : St) :
  queries_keep_root env ->
  let fresh := new_FirestoreQueryBuilder (collection self) in
  let chained := run env (chain_all cs) fresh st in
  run env createQueryBuilder self st0 = mkRun (Ok fresh) self st0 []
  /\ all_on (collection self) chained
  /\ all_on (collection self)
            (run env (builder_method m) (this_after chained) st').
Proof.
  intros Hroot fresh chained. split; [done|].
  assert (rooted fresh) as Hfresh by done.
  destruct (chain_all_rooted env cs fresh st Hroot Hfresh) as [Hr Hon].
  split; [done|].
  pose proof (chain_all_keeps_reference env cs fresh st) as Href.
  fold chained in Hr, Href.
  pose proof (builder_method_all_on env m (this_after chained) st' Hroot Hr) as H.
  by rewrite Href in H.
Qed.

Lemma builder_calls_stay_in_collection_witness :
  let fresh := new_FirestoreQueryBuilder Sample.accounts in
  let chained :=
    run InMemory.env
        (chain_all [Where "displayName" OpEq (VStr "Bob"); Limit 5])
        fresh Sample.st0 in
  run InMemory.env createQueryBuilder Sample.repository Sample.st0
    = mkRun (Ok fresh) Sample.repository Sample.st0 []
  /\ all_on Sample.accounts chained
  /\ all_on Sample.accounts
            (run InMemory.env (builder_method (Materialized GetOne))
                 (this_after chained) Sample.st0).
Proof.
  apply (builder_calls_stay_in_collection InMemory.env Sample.repository
           [Where "displayName" OpEq (VStr "Bob"); Limit 5]
           (Materialized GetOne) Sample.st0 Sample.st0 Sample.st0).
  intros c q call st q' st' Hcall Hq.
  destruct c; simpl in Hcall; inversion Hcall; subst call;
    simpl in Hq; inversion Hq; reflexivity.
Defined.

(** ** Further properties of the decorator and the constructor *)

Lemma own_metadata_defineMetadata (key key' value : string) (n : nat)
    (target : Constructor) (m : Metadata) :
  own_metadata key' n (defineMetadata key value target m)
  = if decide (n = ctor_id target /\ key' = key) then Some value
    else own_metadata key' n m.
Proof.
  unfold own_metadata, defineMetadata.
  destruct (decide (n = ctor_id target)) as [->|Hn].
  - rewrite lookup_insert_eq. simpl.
    destruct (decide (key' = key)) as [->|Hk].
    + rewrite lookup_insert_eq. by rewrite decide_True.
    + rewrite lookup_insert_ne by done.
      rewrite decide_False by (by intros [_ ?]).
      by destruct (m !! ctor_id target).
  - rewrite lookup_insert_ne by done.
    by rewrite decide_False by (by intros [? _]).
Qed.

Lemma getMetadata_unfold (key : string) (target : Constructor) (m : Metadata) :
  getMetadata key target m
  = match own_metadata key (ctor_id target) m, target with
    | Some v, _ => Some v
    | None, DerivedClass _ parent => getMetadata key parent m
    | None, BaseClass _ => None
    end.
Proof. destruct target; simpl; unfold own_metadata; by destruct (_ ≫= _). Qed.

Lemma constructor_run {St} (env : Env St) (KEY : string) (m : Metadata)
    (fs : Firestore) (C : Constructor) (st : St) :
  run env (new_FirestoreRepositoryBase KEY m fs C) tt st
  = one_call env (Firestore_collection fs (getMetadata KEY C m)) tt st
             (fun _ => tt) (fun c => {| firestore := fs; collection := c |}).
Proof. unfold new_FirestoreRepositoryBase, one_call. simpl. by answer. Qed.

(** X14: when [FirestoreDocument] is applied to the same class twice, the
    name applied last replaces the earlier one: the registry is the one the
    last application alone would have produced, and a repository
    constructed for the class asks the client for the collection of that
    last name. *)
Theorem FirestoreDocument_last_wins {St} (env : Env St) (KEY : string)
    (C : Constructor) (n1 n2 : string) (m : Metadata) (fs : Firestore) (st : St) :
  let m' := FirestoreDocument KEY n2 C (FirestoreDocument KEY n1 C m) in
  m' = FirestoreDocument KEY n2 C m
  /\ getMetadata KEY C m' = Some n2
  /\ run env (new_FirestoreRepositoryBase KEY m' fs C) tt st
     = one_call env (Firestore_collection fs (Some n2)) tt st (fun _ => tt)
                (fun c => {| firestore := fs; collection := c |}).
Proof.
  intros m'.
  assert (getMetadata KEY C m' = Some n2) as Hget.
  { apply getMetadata_own, defineMetadata_own. }
  split_and!.
  - subst m'. unfold FirestoreDocument, defineMetadata.
    rewrite lookup_insert_eq. simpl. by rewrite !insert_insert_eq.
  - exact Hget.
  - by rewrite constructor_run, Hget.
Qed.

(** X15: a class that extends a decorated class and has no name of its own
    under the key inherits the parent's: a repository constructed for the
    subclass reads the parent's collection name and asks the client for that
    collection. *)
Theorem subclass_inherits_collection {St} (env : Env St) (KEY : string)
    (parent : Constructor) (d : nat) (n : string) (m : Metadata)
    (fs : Firestore) (st : St) :
  let m' := FirestoreDocument KEY n parent m in
  own_metadata KEY d m' = None ->
  getMetadata KEY (DerivedClass d parent) m' = Some n
  /\ run env (new_FirestoreRepositoryBase KEY m' fs (DerivedClass d parent)) tt st
     = one_call env (Firestore_collection fs (Some n)) tt st (fun _ => tt)
                (fun c => {| firestore := fs; collection := c |}).
Proof.
  intros m' Hown.
  assert (getMetadata KEY (DerivedClass d parent) m' = Some n) as Hget.
  { rewrite getMetadata_unfold. simpl. rewrite Hown.
    apply getMetadata_own, defineMetadata_own. }
  split; [done|]. by rewrite constructor_run, Hget.
Qed.

Lemma subclass_inherits_collection_witness :
  let m' := FirestoreDocument Sample.KEY "accounts" Sample.Account ∅ in
  getMetadata Sample.KEY (DerivedClass 2 Sample.Account) m' = Some "accounts"
  /\ run InMemory.env
         (new_FirestoreRepositoryBase Sample.KEY m' Sample.db
            (DerivedClass 2 Sample.Account)) tt Sample.st0
     = one_call InMemory.env (Firestore_collection Sample.db (Some "accounts"))
                tt Sample.st0 (fun _ => tt)
                (fun c => {| firestore := Sample.db; collection := c |}).
Proof.
  apply (subclass_inherits_collection InMemory.env Sample.KEY Sample.Account 2
           "accounts" ∅ Sample.db Sample.st0).
  reflexivity.
Defined.

Lemma getMetadata_None (key : string) (C : Constructor) (m : Metadata) :
  (forall n, n ∈ prototype_chain C -> own_metadata key n m = None) ->
  getMetadata key C m = None.
Proof.
  induction C as [n|n parent IH]; intros Hnone; rewrite getMetadata_unfold; simpl.
  - rewrite Hnone; [done|]. simpl. set_solver.
  - rewrite Hnone by (simpl; set_solver). apply IH.
    intros n' Hn'. apply Hnone. simpl. set_solver.
Qed.

(** X16: for a class that was never decorated (no name under the key on
    the class or on anything it extends), the constructor does not stop: it
    passes [undefined] as the collection name to the client's [collection],
    and the construction fails exactly when that client call throws. *)
Theorem undecorated_class_passes_undefined {St} (env : Env St) (KEY : string)
    (C : Constructor) (m : Metadata) (fs : Firestore) (st : St) :
  (forall n, n ∈ prototype_chain C -> own_metadata KEY n m = None) ->
  run env (new_FirestoreRepositoryBase KEY m fs C) tt st
  = one_call env (Firestore_collection fs None) tt st (fun _ => tt)
             (fun c => {| firestore := fs; collection := c |}).
Proof. intros Hnone. by rewrite constructor_run, getMetadata_None. Qed.

Lemma undecorated_class_passes_undefined_witness :
  run InMemory.env
      (new_FirestoreRepositoryBase Sample.KEY ∅ Sample.db Sample.Account)
      tt Sample.st0
  = one_call InMemory.env (Firestore_collection Sample.db None) tt Sample.st0
             (fun _ => tt)
             (fun c => {| firestore := Sample.db; collection := c |}).
Proof.
  apply (undecorated_class_passes_undefined InMemory.env Sample.KEY
           Sample.Account ∅ Sample.db Sample.st0).
  intros n _. reflexivity.
Defined.

(** X17: decorating a class leaves every other reading as it was: the
    name read for a class that neither is nor extends the decorated one is
    unchanged, and so is whatever is stored under any other key. *)
Theorem FirestoreDocument_frame (KEY key' : string) (C D : Constructor)
    (n : string) (m : Metadata) :
  ctor_id C ∉ prototype_chain D \/ key' <> KEY ->
  getMetadata key' D (FirestoreDocument KEY n C m) = getMetadata key' D m.
Proof.
  intros Hother. unfold FirestoreDocument.
  induction D as [d|d parent IH];
    rewrite (getMetadata_unfold key' _ (defineMetadata KEY n C m)),
            (getMetadata_unfold key' _ m), own_metadata_defineMetadata; simpl.
  - rewrite decide_False; [done|].
    intros [-> ->]. destruct Hother as [Hin|Hk]; [|done].
    apply Hin. simpl. set_solver.
  - rewrite decide_False.
    + rewrite IH; [done|]. destruct Hother as [Hin|Hk]; [left|by right].
      intros Hp. apply Hin. simpl. set_solver.
    + intros [-> ->]. destruct Hother as [Hin|Hk]; [|done].
      apply Hin. simpl. set_solver.
Qed.

Lemma FirestoreDocument_frame_witness :
  getMetadata Sample.KEY (BaseClass 7)
    (FirestoreDocument Sample.KEY "accounts" Sample.Account ∅)
  = getMetadata Sample.KEY (BaseClass 7) ∅.
Proof.
  apply (FirestoreDocument_frame Sample.KEY Sample.KEY Sample.Account
           (BaseClass 7) "accounts" ∅).
  left. simpl. intros Hin. apply list_elem_of_singleton in Hin. discriminate Hin.
Defined.
